(** * musicapp.routes.auth: login, signup and bearer-token resolution

    A shallow embedding of [musicapp/routes/auth.py] and the properties its
    specification states about it.

    Modelling conventions.
    - Python values that travel through token claims are [pyval]; a [dict]
      with string keys is a [gmap string pyval]; [d.get(k)] is [dict_get].
    - Instants are whole seconds on the UTC clock ([Z]); every function that
      reads the clock in the source takes the reading as its [now] argument.
    - The module calls three collaborators whose code is not part of it:
      passlib's [CryptContext], jose's [jwt] and the SQLAlchemy session.  They
      are interfaces here (type classes); the properties that are assumed of
      them are named propositions, and every theorem lists the ones it uses.
      The random salt passlib draws is an explicit argument.
    - A [gmap] keeps no insertion order, which jose's serialisation of a
      payload follows; no statement here equates tokens made from different
      dictionaries.
    - Exceptional control flow is the one the source writes, [raise
      HTTPException] and [except JWTError], and two exceptions no handler
      catches.  [password_context.hash] refuses a password that holds a NUL
      byte with [PasswordValueError], and may refuse others; the signup
      handler lets it through.  The constructor of [schemas.TokenData], a
      sibling module that is not at hand, is a parameter that may refuse its
      argument; the [ValidationError] then leaves the resolver uncaught.  A
      call into [jwt.encode] or into the session is taken to return, and
      [password_context.verify] to answer. *)

From Stdlib Require Import ZArith Ascii String List Lia.
From stdpp Require Import base option countable gmap strings list.

Local Open Scope Z_scope.
Local Open Scope string_scope.

(** ** Python values and dictionaries *)

Inductive pyval : Type :=
  | PNone
  | PStr (s : string)
  | PInt (n : Z)
  | PDatetime (t : Z).

#[global] Instance pyval_eq_dec : EqDecision pyval.
Proof. solve_decision. Defined.

Abbreviation dict := (gmap string pyval).

(** [v is None] *)
Definition is_None (v : pyval) : bool :=
  match v with PNone => true | _ => false end.

(** [d.get(k)]: the value under [k], or [None] when the key is missing. *)
Definition dict_get (d : dict) (k : string) : pyval :=
  default PNone (d !! k).

(** [d.copy()] *)
Definition dict_copy (d : dict) : dict := d.

(** [d.update(other)]: the entries of [other] override those of [d]. *)
Definition dict_update (d other : dict) : dict := other ∪ d.

(** [timedelta(minutes=m)], in seconds. *)
Definition timedelta_minutes (m : Z) : Z := m * 60.

(** ** HTTP layer *)

Module status.
Definition HTTP_401_UNAUTHORIZED : Z := 401.
End status.

Record HTTPException : Type := mkHTTPException {
  status_code : Z;
  detail : string;
  headers : option (list (string * string))
}.

#[global] Instance HTTPException_eq_dec : EqDecision HTTPException.
Proof. solve_decision. Defined.

(** Exceptions of other libraries that no handler of this file catches. *)
Inductive exn : Type :=
  | ValidationError
  | PasswordValueError.

(** What a handler body does: it returns a value, raises an [HTTPException],
    or lets another exception through. *)
Inductive result (A : Type) : Type :=
  | Return (a : A)
  | Raise (e : HTTPException)
  | Uncaught (e : exn).
Arguments Return {A} a.
Arguments Raise {A} e.
Arguments Uncaught {A} e.

(** What the client sees. *)
Inductive response (A : Type) : Type :=
  | Ok (code : Z) (body : A)
  | Error (code : Z) (error_detail : string)
          (error_headers : option (list (string * string))).
Arguments Ok {A} code body.
Arguments Error {A} code error_detail error_headers.

(** A route registered with [status_code=code]: a returned value is sent with
    that status, a raised [HTTPException] with its own, and any other
    exception as the framework's 500.  Serialisation through [response_model]
    is not modelled: the body is the value the handler returns. *)
Definition route {A : Type} (code : Z) (r : result A) : response A :=
  match r with
  | Return a => Ok code a
  | Raise e => Error (status_code e) (detail e) (headers e)
  | Uncaught _ => Error 500 "Internal Server Error" None
  end.

Definition response_code {A : Type} (r : response A) : Z :=
  match r with
  | Ok code _ => code
  | Error code _ _ => code
  end.

(** ** Declarations of the sibling modules *)

Module models.
(** Modelled from the spec: [models.Users] is declared outside this file;
    the data model gives a user the attributes [id], [username],
    [passwordHash] and [role]. *)
Record Users : Type := mkUsers {
  id : Z;
  username : string;
  passwordHash : string;
  role : string
}.
End models.

Module schemas.
(** Modelled from the spec: [schemas.CreateUser] is declared outside this
    file; the signup request carries [username], [password], [confirmation]
    and [role]. *)
Record CreateUser : Type := mkCreateUser {
  username : string;
  password : string;
  confirmation : string;
  role : string
}.
End schemas.

(** [schemas.TokenData] is declared outside this file.  Its constructor is a
    parameter: [None] stands for the [ValidationError] with which a pydantic
    model refuses a field value. *)
Class Schemas : Type := {
  TokenData : Type;
  TokenData_new : pyval -> option TokenData
}.

(** The fields of [OAuth2PasswordRequestForm] the login handler reads. *)
Record OAuth2PasswordRequestForm : Type := mkForm {
  form_username : string;
  form_password : string
}.

(** ** Collaborators *)

(** [passlib.context.CryptContext] with the bcrypt scheme.  [digest] is what
    the scheme does with a secret that holds no NUL byte: the hash string, or
    the exception with which it refuses the secret. *)
Class CryptContext : Type := {
  Salt : Type;
  digest : Salt -> string -> exn + string;
  (** [verify secret hashed] is [ctx.verify(secret, hash=hashed)]. *)
  verify : string -> string -> bool
}.

(** Does the string hold a NUL byte? *)
Fixpoint has_nul (s : string) : bool :=
  match s with
  | EmptyString => false
  | String c s => Ascii.eqb c "000"%char || has_nul s
  end.

(** [ctx.hash(secret)]: a secret with a NUL byte is refused before anything is
    hashed. *)
Definition hash {ctx : CryptContext} (salt : Salt) (secret : string)
  : exn + string :=
  if has_nul secret then inl PasswordValueError else digest salt secret.

(** The exceptions of [jose] that [except JWTError] catches. *)
Inductive JWTError : Type :=
  | JWTError_
  | ExpiredSignatureError
  | JWTClaimsError.

(** [jose.jwt].  [jwt_decode] reads the clock to validate [exp]; its first
    argument is that reading. *)
Class Jwt : Type := {
  jwt_encode : dict -> option string -> option string -> string;
  jwt_decode : Z -> string -> option string -> list (option string) ->
               JWTError + dict
}.

(** The process environment: [os.environ.get] gives [None] for an unset name. *)
Class Environ : Type := {
  SECRET_KEY : option string;
  ALGORITHM : option string
}.

(** The store behind the session.  The user table is a [list models.Users], in
    the order [first()] scans it; [next_id] is the primary key the store gives
    a row added to that table. *)
Class Database : Type := {
  next_id : list models.Users -> Z
}.

(** ** The module *)

Section Auth.
Context {password_context : CryptContext} {jwt : Jwt} {environ : Environ}
        {database : Database} {schemas_ : Schemas}.

(** [db.query(models.Users).filter(models.Users.username == name).first()] *)
Definition query_first_by_username (db : list models.Users) (name : string)
  : option models.Users :=
  find (fun u => String.eqb (models.username u) name) db.

(** [db.add(u); db.commit(); db.refresh(u)] for a user built without [id]. *)
Definition add_commit_refresh (db : list models.Users)
    (u : Z -> models.Users) : models.Users * list models.Users :=
  let row := u (next_id db) in (row, (db ++ [row])%list).

Definition generate_hash (salt : Salt) (password : string) : exn + string :=
  hash salt password.

Definition verify_password (hashed_pass plain_text : string) : bool :=
  verify plain_text hashed_pass.

Definition create_access_token (now : Z) (data : dict) : string :=
  let to_encode := dict_copy data in
  let expire := now + timedelta_minutes 60 in
  let to_encode := dict_update to_encode {[ "exp" := PDatetime expire ]} in
  let encoded_jwt := jwt_encode to_encode SECRET_KEY ALGORITHM in
  encoded_jwt.

Definition credentials_exception : HTTPException :=
  {| status_code := status.HTTP_401_UNAUTHORIZED;
     detail := "Could not validate credentials";
     headers := Some [("WWW-Authenticate", "Bearer")] |}.

Definition get_current_user (now : Z) (token : string) : result dict :=
  match jwt_decode now token SECRET_KEY [ALGORITHM] with
  | inl _ => Raise credentials_exception
  | inr payload =>
      let username := dict_get payload "username" in
      if is_None username then Raise credentials_exception
      else
        match TokenData_new username with
        | None => Uncaught ValidationError
        | Some token_data =>
            let user : option dict :=
              Some {[ "username" := username;
                      "id" := dict_get payload "id";
                      "role" := dict_get payload "role" ]} in
            match user with
            | None => Raise credentials_exception
            | Some user => Return user
            end
        end
  end.

Definition login_token (now : Z) (request : OAuth2PasswordRequestForm)
    (db : list models.Users) : result dict :=
  let user := query_first_by_username db (form_username request) in
  match user with
  | Some user =>
      if verify_password (models.passwordHash user) (form_password request)
      then
        let token :=
          create_access_token now
            {[ "username" := PStr (models.username user);
               "id" := PInt (models.id user);
               "role" := PStr (models.role user) ]} in
        Return {[ "access_token" := PStr token;
                  "token_type" := PStr "bearer" ]}
      else
        Raise {| status_code := 401;
                 detail := "Invalid username or password";
                 headers := None |}
  | None =>
      Raise {| status_code := 401;
               detail := "Invalid username or password";
               headers := None |}
  end.

Definition create_user (salt : Salt) (request : schemas.CreateUser)
    (db : list models.Users) : result models.Users * list models.Users :=
  if String.eqb (schemas.password request) (schemas.confirmation request)
  then
    match generate_hash salt (schemas.password request) with
    | inl e => (Uncaught e, db)
    | inr hash_pass =>
        let db_user := fun i =>
          {| models.id := i;
             models.username := schemas.username request;
             models.passwordHash := hash_pass;
             models.role := schemas.role request |} in
        let '(db_user, db) := add_commit_refresh db db_user in
        (Return db_user, db)
    end
  else
    (Raise {| status_code := status.HTTP_401_UNAUTHORIZED;
              detail := "Password Don't Match";
              headers := None |}, db).

(** The status codes the two routes are registered with. *)
Definition login_token_status_code : Z := 200.
Definition create_user_status_code : Z := 200.

(** ** What is assumed of the collaborators *)

(** passlib: a hash it returned verifies against the secret it was made
    from. *)
Definition verify_accepts_own_hash : Prop :=
  forall (salt : Salt) (secret hashed : string),
    hash salt secret = inr hashed -> verify secret hashed = true.

(** passlib: a hash it returned is never the secret itself. *)
Definition hash_differs_from_secret : Prop :=
  forall (salt : Salt) (secret hashed : string),
    hash salt secret = inr hashed -> hashed <> secret.

(** The claim names jose gives a meaning of their own when it decodes. *)
Definition registered_claim_names : list string :=
  ["iss"; "sub"; "aud"; "iat"; "nbf"; "jti"; "at_hash"].

(** A claim jose carries through unchanged: a private name with a value
    JSON has a literal for.  [exp] is handled apart. *)
Definition private_claim (k : string) (v : pyval) : bool :=
  String.eqb k "exp"
  || (negb (existsb (String.eqb k) registered_claim_names)
      && match v with PDatetime _ => false | _ => true end).

Definition private_claims (data : dict) : Prop :=
  map_Forall (fun k v => private_claim k v = true) data.

(** jose, with the key and algorithm of this process: a token made from
    private claims and an [exp] instant decodes, up to and including that
    instant, to the same claims with [exp] as a number. *)
Definition jwt_round_trip : Prop :=
  forall (claims : dict) (expire now : Z),
    private_claims claims ->
    claims !! "exp" = Some (PDatetime expire) ->
    now <= expire ->
    jwt_decode now (jwt_encode claims SECRET_KEY ALGORITHM)
               SECRET_KEY [ALGORITHM]
    = inr (<[ "exp" := PInt expire ]> claims).

(** jose: a token whose [exp] instant has passed does not decode. *)
Definition jwt_rejects_expired : Prop :=
  forall (claims : dict) (expire now : Z),
    claims !! "exp" = Some (PDatetime expire) ->
    expire < now ->
    exists err : JWTError,
      jwt_decode now (jwt_encode claims SECRET_KEY ALGORITHM)
                 SECRET_KEY [ALGORITHM]
      = inl err.

(** ** Vocabulary of the specification *)

(** The one exception the login handler raises. *)
Definition invalid_credentials : HTTPException :=
  {| status_code := 401;
     detail := "Invalid username or password";
     headers := None |}.

(** The two ways a login is refused: no stored user has the requested name,
    or the user found for it has a hash the password does not verify
    against. *)
Definition unknown_user (request : OAuth2PasswordRequestForm)
    (db : list models.Users) : Prop :=
  forall user : models.Users,
    In user db -> models.username user <> form_username request.

Definition wrong_password (request : OAuth2PasswordRequestForm)
    (db : list models.Users) : Prop :=
  exists user,
    query_first_by_username db (form_username request) = Some user /\
    verify_password (models.passwordHash user) (form_password request)
    = false.

(** The exception the signup handler raises. *)
Definition password_mismatch : HTTPException :=
  {| status_code := 401;
     detail := "Password Don't Match";
     headers := None |}.

(** What [create_access_token] hands to [jwt.encode]: the caller's claims
    with [exp] set to one hour after the clock reading. *)
Definition to_encode (now : Z) (data : dict) : dict :=
  dict_update (dict_copy data) {[ "exp" := PDatetime (now + 3600) ]}.

(** The claims the login handler signs for a stored user. *)
Definition login_claims (user : models.Users) : dict :=
  {[ "username" := PStr (models.username user);
     "id" := PInt (models.id user);
     "role" := PStr (models.role user) ]}.

(** The row the signup handler adds for a request, given the hash of its
    password. *)
Definition new_user (hash_pass : string) (request : schemas.CreateUser)
    (db : list models.Users) : models.Users :=
  {| models.id := next_id db;
     models.username := schemas.username request;
     models.passwordHash := hash_pass;
     models.role := schemas.role request |}.

(** The dictionary the resolver binds to [user] for a decoded payload. *)
Definition resolved_user (payload : dict) : dict :=
  {[ "username" := dict_get payload "username";
     "id" := dict_get payload "id";
     "role" := dict_get payload "role" ]}.

(** [jwt.decode] of a token under the key and algorithm of this process. *)
Definition decoded (now : Z) (token : string) : JWTError + dict :=
  jwt_decode now token SECRET_KEY [ALGORITHM].

End Auth.

(** ** A reference implementation of the collaborators

    Small executable stand-ins for passlib, jose, the environment, the store
    and the schema, used to run the handlers on concrete requests and to show
    that the assumptions above can be met together. *)

Module Reference.

(** A token is the binary numeral of a code of (claims, key, algorithm). *)
Fixpoint string_of_code (p : positive) : string :=
  match p with
  | xH => EmptyString
  | xO p => String "0"%char (string_of_code p)
  | xI p => String "1"%char (string_of_code p)
  end.

Fixpoint code_of_string (s : string) : option positive :=
  match s with
  | EmptyString => Some xH
  | String c s =>
      match code_of_string s with
      | Some p =>
          if Ascii.eqb c "0"%char then Some (xO p)
          else if Ascii.eqb c "1"%char then Some (xI p)
          else None
      | None => None
      end
  end.

Definition pyval_to_sum (v : pyval) : unit + string + Z + Z :=
  match v with
  | PNone => inl (inl (inl tt))
  | PStr s => inl (inl (inr s))
  | PInt n => inl (inr n)
  | PDatetime t => inr t
  end.

Definition pyval_of_sum (x : unit + string + Z + Z) : pyval :=
  match x with
  | inl (inl (inl _)) => PNone
  | inl (inl (inr s)) => PStr s
  | inl (inr n) => PInt n
  | inr t => PDatetime t
  end.

#[local] Instance pyval_countable : Countable pyval.
Proof.
  apply (inj_countable' pyval_to_sum pyval_of_sum).
  intros []; reflexivity.
Defined.

Definition signed : Type := dict * option string * option string.

(** A hash is a marker, the salt, and the secret in the clear. *)
Definition context : CryptContext := {|
  Salt := Ascii.ascii;
  digest salt secret := inr (String "$"%char (String salt secret));
  verify secret hashed :=
    match hashed with
    | String "$"%char (String _ rest) => String.eqb rest secret
    | _ => false
    end
|}.

Definition jose : Jwt := {|
  jwt_encode claims key algorithm :=
    string_of_code (encode (A := signed) (claims, key, algorithm));
  jwt_decode now token key algorithms :=
    match code_of_string token ≫= decode (A := signed) with
    | Some (claims, key', algorithm) =>
        if bool_decide (key' = key) && bool_decide (algorithm ∈ algorithms)
        then
          match claims !! "exp" with
          | Some (PDatetime expire) =>
              if (expire <? now)%Z then inl ExpiredSignatureError
              else inr (<[ "exp" := PInt expire ]> claims)
          | _ => inr claims
          end
        else inl JWTError_
    | None => inl JWTError_
    end
|}.

Definition environ : Environ := {|
  SECRET_KEY := Some "correct horse battery staple";
  ALGORITHM := Some "HS256"
|}.

Definition database : Database := {|
  next_id db := Z.of_nat (length db) + 1
|}.

(** A [TokenData] whose [username] field must be a string. *)
Definition schema : Schemas := {|
  TokenData := string;
  TokenData_new v := match v with PStr s => Some s | _ => None end
|}.

(** Sample data. *)
Definition alice : models.Users :=
  {| models.id := 1;
     models.username := "alice";
     models.passwordHash := "$swonderland";
     models.role := "listener" |}.

Definition users : list models.Users := [alice].

Definition good_login : OAuth2PasswordRequestForm :=
  {| form_username := "alice"; form_password := "wonderland" |}.

Definition bad_login : OAuth2PasswordRequestForm :=
  {| form_username := "alice"; form_password := "looking-glass" |}.

Definition good_signup : schemas.CreateUser :=
  {| schemas.username := "bob";
     schemas.password := "builder";
     schemas.confirmation := "builder";
     schemas.role := "admin" |}.

Definition bad_signup : schemas.CreateUser :=
  {| schemas.username := "bob";
     schemas.password := "builder";
     schemas.confirmation := "bulider";
     schemas.role := "admin" |}.

(** Claims with a [username] and neither [id] nor [role]. *)
Definition bare_claims : dict := {[ "username" := PStr "alice" ]}.

(** The password [a\x00b], and a signup that sends it twice. *)
Definition nul_password : string :=
  String "a"%char (String "000"%char (String "b"%char EmptyString)).

Definition nul_signup : schemas.CreateUser :=
  {| schemas.username := "carol";
     schemas.password := nul_password;
     schemas.confirmation := nul_password;
     schemas.role := "listener" |}.

End Reference.

(** ** Dictionaries *)

Section Dictionaries.

Lemma dict_get_Some (d : dict) (k : string) (v : pyval) :
  d !! k = Some v -> dict_get d k = v.
Proof. unfold dict_get. intros ->. reflexivity. Qed.

Lemma dict_get_missing (d : dict) (k : string) :
  d !! k = None -> dict_get d k = PNone.
Proof. unfold dict_get. intros ->. reflexivity. Qed.

Lemma is_None_true (v : pyval) : is_None v = true <-> v = PNone.
Proof. destruct v; simpl; split; congruence. Qed.

Lemma is_None_false (v : pyval) : is_None v = false <-> v <> PNone.
Proof. destruct v; simpl; split; congruence. Qed.

(** Updating with a one-entry dictionary sets that entry... *)
Lemma dict_update_singleton_eq (d : dict) (k : string) (v : pyval) :
  dict_update d {[ k := v ]} !! k = Some v.
Proof.
  unfold dict_update. apply lookup_union_Some_l, lookup_singleton_eq.
Qed.

(** ... and leaves every other one as it was. *)
Lemma dict_update_singleton_ne (d : dict) (k k' : string) (v : pyval) :
  k <> k' -> dict_update d {[ k := v ]} !! k' = d !! k'.
Proof.
  intros Hne. unfold dict_update.
  rewrite lookup_union_r; [reflexivity|].
  by apply lookup_singleton_ne.
Qed.

End Dictionaries.

(** ** The store *)

Section Store.

(** [first()] gives a row only if its [username] is the one asked for. *)
Lemma query_first_by_username_Some (db : list models.Users) (name : string)
    (user : models.Users) :
  query_first_by_username db name = Some user ->
  In user db /\ models.username user = name.
Proof.
  unfold query_first_by_username. intros Hfind.
  apply find_some in Hfind as [Hin Heq].
  split; [exact Hin|]. by apply String.eqb_eq.
Qed.

(** [first()] gives nothing exactly when no row has that [username]. *)
Lemma query_first_by_username_None (db : list models.Users) (name : string) :
  query_first_by_username db name = None <->
  forall user, In user db -> models.username user <> name.
Proof.
  unfold query_first_by_username. split.
  - intros Hfind user Hin Heq.
    pose proof (find_none _ _ Hfind user Hin) as Hneq. simpl in Hneq.
    apply String.eqb_neq in Hneq. contradiction.
  - intros Hall. induction db as [|row db IH]; [reflexivity|].
    simpl. destruct (String.eqb (models.username row) name) eqn:Heq.
    + apply String.eqb_eq in Heq. exfalso. apply (Hall row); [by left|done].
    + apply IH. intros user Hin. apply Hall. by right.
Qed.

End Store.

(** ** Login *)

Section Login.
Context {password_context : CryptContext} {jwt : Jwt} {environ : Environ}.

Lemma login_token_refused (now : Z) (request : OAuth2PasswordRequestForm)
    (db : list models.Users) :
  unknown_user request db \/ wrong_password request db ->
  login_token now request db = Raise invalid_credentials.
Proof.
  unfold login_token.
  intros [Hnone | (user & Hsome & Hverify)].
  - apply query_first_by_username_None in Hnone. rewrite Hnone. reflexivity.
  - rewrite Hsome, Hverify. reflexivity.
Qed.

(** C1. A login for which no user has the requested username, or for which
    the stored hash does not verify against the supplied password, raises
    the same [HTTPException] in both cases: status 401, detail "Invalid
    username or password", no headers; the client receives that 401. *)
Theorem login_token_unauthorized (now : Z)
    (request : OAuth2PasswordRequestForm) (db : list models.Users) :
  unknown_user request db \/ wrong_password request db ->
  login_token now request db = Raise invalid_credentials /\
  route login_token_status_code (login_token now request db)
  = Error 401 "Invalid username or password" None.
Proof.
  intros Hfail. apply login_token_refused with (now := now) in Hfail.
  split; [exact Hfail|]. rewrite Hfail. reflexivity.
Qed.

(** Two refused logins, whatever the cause of each, get the same response. *)
Corollary login_failures_indistinguishable (now now' : Z)
    (request request' : OAuth2PasswordRequestForm)
    (db db' : list models.Users) :
  unknown_user request db ->
  wrong_password request' db' ->
  route login_token_status_code (login_token now request db)
  = route login_token_status_code (login_token now' request' db').
Proof.
  intros Hunknown Hwrong.
  rewrite (login_token_refused now request db) by (by left).
  rewrite (login_token_refused now' request' db') by (by right).
  reflexivity.
Qed.

End Login.

(** ** The token codec *)

Section TokenCodec.
Context {jwt : Jwt} {environ : Environ} {schemas_ : Schemas}.

Lemma sixty_minutes : timedelta_minutes 60 = 3600.
Proof. reflexivity. Qed.

Lemma create_access_token_unfold (now : Z) (data : dict) :
  create_access_token now data
  = jwt_encode (to_encode now data) SECRET_KEY ALGORITHM.
Proof. reflexivity. Qed.

Lemma to_encode_exp (now : Z) (data : dict) :
  to_encode now data !! "exp" = Some (PDatetime (now + 3600)).
Proof. apply dict_update_singleton_eq. Qed.

Lemma to_encode_other (now : Z) (data : dict) (k : string) :
  k <> "exp" -> to_encode now data !! k = data !! k.
Proof.
  intros Hne. unfold to_encode, dict_copy.
  by apply dict_update_singleton_ne.
Qed.

Lemma to_encode_private (now : Z) (data : dict) :
  private_claims data -> private_claims (to_encode now data).
Proof.
  unfold private_claims. intros Hdata k v Hlookup.
  destruct (decide (k = "exp")) as [-> | Hne]; [reflexivity|].
  rewrite to_encode_other in Hlookup by done.
  exact (Hdata k v Hlookup).
Qed.

(** Within the hour the token decodes to the caller's claims plus [exp]. *)
Lemma decoded_create_access_token (now later : Z) (data : dict) :
  jwt_round_trip ->
  private_claims data ->
  later <= now + 3600 ->
  decoded later (create_access_token now data)
  = inr (<[ "exp" := PInt (now + 3600) ]> (to_encode now data)).
Proof.
  intros Hrt Hprivate Hlater.
  unfold decoded. rewrite create_access_token_unfold.
  apply Hrt; [by apply to_encode_private | apply to_encode_exp | exact Hlater].
Qed.

Lemma decoded_payload_other (now : Z) (data : dict) (k : string) :
  k <> "exp" ->
  <[ "exp" := PInt (now + 3600) ]> (to_encode now data) !! k = data !! k.
Proof.
  intros Hne. rewrite lookup_insert_ne by done. by apply to_encode_other.
Qed.

(** After the hour it does not decode, and the resolver refuses it. *)
Lemma expired_create_access_token (now later : Z) (data : dict) :
  jwt_rejects_expired ->
  now + 3600 < later ->
  exists err, decoded later (create_access_token now data) = inl err.
Proof.
  intros Hexp Hlater. unfold decoded. rewrite create_access_token_unfold.
  apply (Hexp _ (now + 3600)); [apply to_encode_exp | exact Hlater].
Qed.

(** C2. Decoding, no later than one hour after issuance, the token that
    [create_access_token] made from a mapping of private claims succeeds,
    and the payload has the mapping's [username], [id] and [role] (and every
    other claim but [exp]) unchanged. *)
Theorem decode_encode_preserves_claims (now later : Z) (data : dict) :
  jwt_round_trip ->
  private_claims data ->
  later <= now + 3600 ->
  exists payload : dict,
    decoded later (create_access_token now data) = inr payload /\
    payload !! "username" = data !! "username" /\
    payload !! "id" = data !! "id" /\
    payload !! "role" = data !! "role" /\
    (forall k, k <> "exp" -> payload !! k = data !! k).
Proof.
  intros Hrt Hprivate Hlater.
  eexists. split; [by apply decoded_create_access_token|].
  repeat split; by apply decoded_payload_other.
Qed.

(** C6. The claims [create_access_token] signs carry [exp] set to exactly
    sixty minutes after the clock reading, a decode within that hour shows
    that instant, and a decode at any later instant fails with a [JWTError],
    which the resolver turns into its 401. *)
Theorem access_token_expires_after_one_hour (now : Z) (data : dict) :
  jwt_round_trip ->
  jwt_rejects_expired ->
  (exists claims : dict,
     create_access_token now data = jwt_encode claims SECRET_KEY ALGORITHM /\
     claims !! "exp" = Some (PDatetime (now + timedelta_minutes 60))) /\
  (forall later : Z,
     private_claims data ->
     later <= now + timedelta_minutes 60 ->
     exists payload : dict,
       decoded later (create_access_token now data) = inr payload /\
       payload !! "exp" = Some (PInt (now + timedelta_minutes 60))) /\
  (forall later : Z,
     now + timedelta_minutes 60 < later ->
     (exists err : JWTError,
        decoded later (create_access_token now data) = inl err) /\
     get_current_user later (create_access_token now data)
     = Raise credentials_exception).
Proof.
  intros Hrt Hexp. rewrite sixty_minutes. split; [|split].
  - exists (to_encode now data).
    split; [apply create_access_token_unfold | apply to_encode_exp].
  - intros later Hprivate Hlater. eexists.
    split; [by apply decoded_create_access_token|].
    apply lookup_insert_eq.
  - intros later Hlater.
    destruct (expired_create_access_token now later data Hexp Hlater)
      as [err Herr].
    split; [by exists err|].
    unfold get_current_user. unfold decoded in Herr. rewrite Herr.
    reflexivity.
Qed.

End TokenCodec.

(** ** Successful login *)

Section LoginSuccess.
Context {password_context : CryptContext} {jwt : Jwt} {environ : Environ}.

Lemma login_claims_private (user : models.Users) :
  private_claims (login_claims user).
Proof.
  unfold private_claims, login_claims. intros k v Hlookup.
  apply lookup_insert_Some in Hlookup as [[<- <-] | [_ Hlookup]];
    [reflexivity|].
  apply lookup_insert_Some in Hlookup as [[<- <-] | [_ Hlookup]];
    [reflexivity|].
  apply lookup_singleton_Some in Hlookup as [<- <-]. reflexivity.
Qed.

Lemma login_token_accepted (now : Z) (request : OAuth2PasswordRequestForm)
    (db : list models.Users) (user : models.Users) :
  query_first_by_username db (form_username request) = Some user ->
  verify_password (models.passwordHash user) (form_password request) = true ->
  login_token now request db
  = Return {[ "access_token" :=
                PStr (create_access_token now (login_claims user));
              "token_type" := PStr "bearer" ]}.
Proof.
  intros Hsome Hverify. unfold login_token.
  rewrite Hsome, Hverify. reflexivity.
Qed.

(** C4. A login whose username selects a stored user and whose password
    verifies against that user's hash returns, with status 200, the body
    [{access_token, token_type: "bearer"}]; the token is the one made from
    the user's [username], [id] and [role], and decoding it within the hour
    gives back exactly those three claims. *)
Theorem login_token_issues_user_claims (now : Z)
    (request : OAuth2PasswordRequestForm) (db : list models.Users)
    (user : models.Users) :
  jwt_round_trip ->
  query_first_by_username db (form_username request) = Some user ->
  verify_password (models.passwordHash user) (form_password request) = true ->
  exists token : string,
    route login_token_status_code (login_token now request db)
    = Ok 200 {[ "access_token" := PStr token;
                "token_type" := PStr "bearer" ]} /\
    token = create_access_token now
              {[ "username" := PStr (models.username user);
                 "id" := PInt (models.id user);
                 "role" := PStr (models.role user) ]} /\
    models.username user = form_username request /\
    forall later : Z,
      later <= now + 3600 ->
      exists payload : dict,
        decoded later token = inr payload /\
        payload !! "username" = Some (PStr (models.username user)) /\
        payload !! "id" = Some (PInt (models.id user)) /\
        payload !! "role" = Some (PStr (models.role user)).
Proof.
  intros Hrt Hsome Hverify.
  exists (create_access_token now (login_claims user)).
  split; [|split; [reflexivity|split]].
  - rewrite (login_token_accepted now request db user Hsome Hverify).
    reflexivity.
  - by apply query_first_by_username_Some in Hsome as [_ ?].
  - intros later Hlater. eexists.
    split; [apply decoded_create_access_token;
            [exact Hrt | apply login_claims_private | exact Hlater]|].
    rewrite !decoded_payload_other by done.
    unfold login_claims. repeat split; by simplify_map_eq.
Qed.

End LoginSuccess.

(** ** The credential hasher *)

Section Hasher.
Context {password_context : CryptContext}.

(** A password that holds a NUL byte is refused. *)
Lemma generate_hash_nul (salt : Salt) (p : string) :
  has_nul p = true -> generate_hash salt p = inl PasswordValueError.
Proof. unfold generate_hash, hash. intros ->. reflexivity. Qed.



End Hasher.

(** ** Signup *)

Section Signup.
Context {password_context : CryptContext} {database : Database}.

(** C3. A signup whose password differs from its confirmation raises the
    [HTTPException] with status 401 and detail "Password Don't Match", and
    leaves the user table as it was. *)
Theorem create_user_password_mismatch (salt : Salt)
    (request : schemas.CreateUser) (db : list models.Users) :
  schemas.password request <> schemas.confirmation request ->
  create_user salt request db = (Raise password_mismatch, db) /\
  route create_user_status_code (create_user salt request db).1
  = Error 401 "Password Don't Match" None /\
  (create_user salt request db).2 = db.
Proof.
  intros Hne. apply String.eqb_neq in Hne.
  unfold create_user. rewrite Hne. by repeat split.
Qed.

Lemma create_user_inserts (salt : Salt) (request : schemas.CreateUser)
    (db : list models.Users) (hash_pass : string) :
  schemas.password request = schemas.confirmation request ->
  generate_hash salt (schemas.password request) = inr hash_pass ->
  create_user salt request db
  = (Return (new_user hash_pass request db),
     (db ++ [new_user hash_pass request db])%list).
Proof.
  intros Heq Hhash. apply String.eqb_eq in Heq.
  unfold create_user. rewrite Heq, Hhash. reflexivity.
Qed.

(** When the hasher refuses the password its exception leaves the handler,
    before anything is added to the session. *)
Lemma create_user_hash_raises (salt : Salt) (request : schemas.CreateUser)
    (db : list models.Users) (e : exn) :
  schemas.password request = schemas.confirmation request ->
  generate_hash salt (schemas.password request) = inl e ->
  create_user salt request db = (Uncaught e, db).
Proof.
  intros Heq Hhash. apply String.eqb_eq in Heq.
  unfold create_user. rewrite Heq, Hhash. reflexivity.
Qed.

(** C7, as amended.  A signup whose password equals its confirmation and is
    one passlib hashes returns, with status 200, the one row it appends to
    the user table; the row has the request's [username] and [role]
    verbatim, and its [passwordHash] is the hash of the password: it verifies
    against the password and differs from it.  When passlib refuses the
    password, as it does one with a NUL byte, the exception leaves the
    handler and the table is as it was. *)
Theorem create_user_inserts_hashed_user (salt : Salt)
    (request : schemas.CreateUser) (db : list models.Users) :
  verify_accepts_own_hash ->
  hash_differs_from_secret ->
  schemas.password request = schemas.confirmation request ->
  (forall hash_pass : string,
     generate_hash salt (schemas.password request) = inr hash_pass ->
     exists row : models.Users,
       create_user salt request db = (Return row, (db ++ [row])%list) /\
       route create_user_status_code (create_user salt request db).1
       = Ok 200 row /\
       length (create_user salt request db).2 = S (length db) /\
       models.username row = schemas.username request /\
       models.role row = schemas.role request /\
       models.passwordHash row = hash_pass /\
       verify_password (models.passwordHash row) (schemas.password request)
       = true /\
       models.passwordHash row <> schemas.password request) /\
  (forall e : exn,
     generate_hash salt (schemas.password request) = inl e ->
     create_user salt request db = (Uncaught e, db)) /\
  (has_nul (schemas.password request) = true ->
   create_user salt request db = (Uncaught PasswordValueError, db)).
Proof.
  intros Hverify Hdiffers Heq. split; [|split].
  - intros hash_pass Hhash.
    exists (new_user hash_pass request db).
    rewrite (create_user_inserts salt request db hash_pass Heq Hhash). simpl.
    repeat split.
    + rewrite length_app. simpl. lia.
    + by apply Hverify with salt.
    + by apply Hdiffers with salt.
  - intros e Hhash. by apply create_user_hash_raises.
  - intros Hnul. apply create_user_hash_raises; [exact Heq|].
    by apply generate_hash_nul.
Qed.

End Signup.

(** ** Signup, then login *)

Section SignupLogin.
Context {password_context : CryptContext} {jwt : Jwt} {environ : Environ}
        {database : Database}.

Lemma query_first_by_username_app (db : list models.Users)
    (row : models.Users) (name : string) :
  query_first_by_username db name = None ->
  models.username row = name ->
  query_first_by_username (db ++ [row]) name = Some row.
Proof.
  unfold query_first_by_username. intros Hnone Hname.
  induction db as [|first db IH]; simpl in *.
  - apply String.eqb_eq in Hname. rewrite Hname. reflexivity.
  - destruct (String.eqb (models.username first) name);
      [discriminate | by apply IH].
Qed.

(** A user who signs up, with a password passlib hashes, under a name no
    stored user has can then log in with the same password, and gets the
    token of the row that was added. *)
Lemma login_after_signup (salt : Salt) (now : Z)
    (request : schemas.CreateUser) (db : list models.Users)
    (hash_pass : string) :
  verify_accepts_own_hash ->
  schemas.password request = schemas.confirmation request ->
  generate_hash salt (schemas.password request) = inr hash_pass ->
  (forall user, In user db ->
                models.username user <> schemas.username request) ->
  login_token now
    {| form_username := schemas.username request;
       form_password := schemas.password request |}
    (create_user salt request db).2
  = Return {[ "access_token" :=
                PStr (create_access_token now
                        (login_claims (new_user hash_pass request db)));
              "token_type" := PStr "bearer" ]}.
Proof.
  intros Hverify Heq Hhash Hfresh.
  rewrite (create_user_inserts salt request db hash_pass Heq Hhash). simpl.
  apply login_token_accepted.
  - apply query_first_by_username_app; [|reflexivity].
    by apply query_first_by_username_None.
  - simpl. unfold verify_password. by apply Hverify with salt.
Qed.

End SignupLogin.

(** ** The current-user resolver *)

Section Resolver.
Context {jwt : Jwt} {environ : Environ} {schemas_ : Schemas}.

(** The resolver, case by case on what [jwt.decode] gives. *)
Lemma get_current_user_decode_error (now : Z) (token : string)
    (err : JWTError) :
  decoded now token = inl err ->
  get_current_user now token = Raise credentials_exception.
Proof.
  unfold decoded, get_current_user. intros ->. reflexivity.
Qed.

Lemma get_current_user_no_username (now : Z) (token : string)
    (payload : dict) :
  decoded now token = inr payload ->
  dict_get payload "username" = PNone ->
  get_current_user now token = Raise credentials_exception.
Proof.
  unfold decoded, get_current_user. intros -> ->. reflexivity.
Qed.

Lemma get_current_user_username (now : Z) (token : string)
    (payload : dict) :
  decoded now token = inr payload ->
  dict_get payload "username" <> PNone ->
  get_current_user now token
  = match TokenData_new (dict_get payload "username") with
    | Some _ => Return (resolved_user payload)
    | None => Uncaught ValidationError
    end.
Proof.
  unfold decoded, get_current_user. intros -> Hname.
  apply is_None_false in Hname. rewrite Hname.
  destruct (TokenData_new _); reflexivity.
Qed.

Lemma get_current_user_Return (now : Z) (token : string) (user : dict) :
  get_current_user now token = Return user ->
  exists payload : dict,
    decoded now token = inr payload /\
    dict_get payload "username" <> PNone /\
    user = resolved_user payload.
Proof.
  unfold decoded, get_current_user, resolved_user.
  destruct (jwt_decode now token SECRET_KEY [ALGORITHM]) as [err|payload];
    [discriminate|].
  destruct (is_None (dict_get payload "username")) eqn:Hname;
    [discriminate|].
  destruct (TokenData_new _); [|discriminate].
  intros [= <-]. exists payload.
  split; [reflexivity|]. split; [by apply is_None_false|reflexivity].
Qed.

Lemma credentials_exception_response {A : Type} (code : Z) :
  route (A := A) code (Raise credentials_exception)
  = Error 401 "Could not validate credentials"
          (Some [("WWW-Authenticate", "Bearer")]).
Proof. reflexivity. Qed.

(** C8. When [jwt.decode] fails, whatever the [JWTError], or gives a payload
    whose [username] claim is absent, the resolver raises the 401 that
    carries [WWW-Authenticate: Bearer]; and it returns a user only when the
    decode succeeded with a [username] claim. *)
Theorem get_current_user_unauthorized (now : Z) (token : string) :
  ((exists err : JWTError, decoded now token = inl err) \/
   (exists payload : dict,
      decoded now token = inr payload /\
      dict_get payload "username" = PNone) ->
   get_current_user now token = Raise credentials_exception /\
   forall code : Z,
     route code (get_current_user now token)
     = Error 401 "Could not validate credentials"
             (Some [("WWW-Authenticate", "Bearer")])) /\
  (forall user : dict,
     get_current_user now token = Return user ->
     exists payload : dict,
       decoded now token = inr payload /\
       dict_get payload "username" <> PNone).
Proof.
  split.
  - intros Hfail.
    assert (get_current_user now token = Raise credentials_exception)
      as Hraise.
    { destruct Hfail as [[err Herr] | (payload & Hpayload & Hname)].
      - by apply get_current_user_decode_error with err.
      - by apply get_current_user_no_username with payload. }
    split; [exact Hraise|]. intros code. rewrite Hraise.
    apply credentials_exception_response.
  - intros user Hreturn.
    apply get_current_user_Return in Hreturn
      as (payload & Hpayload & Hname & _).
    by exists payload.
Qed.

(** C9. A token that decodes to a payload with a [username] claim is never
    refused, whether or not it has [id] and [role] claims: the resolver
    returns the user value whose [id] and [role] are what [payload.get]
    gives, [None] for an absent claim.  After a successful decode only an
    absent [username] makes the resolver raise. *)
Theorem get_current_user_tolerates_missing_claims (now : Z)
    (token : string) (payload : dict) :
  decoded now token = inr payload ->
  (dict_get payload "username" <> PNone ->
   (forall e, get_current_user now token <> Raise e) /\
   (is_Some (TokenData_new (dict_get payload "username")) ->
    exists user : dict,
      get_current_user now token = Return user /\
      user !! "username" = Some (dict_get payload "username") /\
      user !! "id" = Some (dict_get payload "id") /\
      user !! "role" = Some (dict_get payload "role") /\
      (payload !! "id" = None -> user !! "id" = Some PNone) /\
      (payload !! "role" = None -> user !! "role" = Some PNone))) /\
  (forall e, get_current_user now token = Raise e ->
             dict_get payload "username" = PNone).
Proof.
  intros Hpayload. split.
  - intros Hname.
    rewrite (get_current_user_username now token payload Hpayload Hname).
    split; [intros e; by destruct (TokenData_new _)|].
    intros [token_data ->]. exists (resolved_user payload).
    split; [reflexivity|].
    unfold resolved_user.
    repeat split; try (by simplify_map_eq).
    + intros Hid. rewrite (dict_get_missing _ _ Hid). by simplify_map_eq.
    + intros Hrole. rewrite (dict_get_missing _ _ Hrole). by simplify_map_eq.
  - intros e Hraise.
    destruct (decide (dict_get payload "username" = PNone)) as [|Hname];
      [done|].
    rewrite (get_current_user_username now token payload Hpayload Hname)
      in Hraise.
    by destruct (TokenData_new _).
Qed.

(** C10. Once the decode has succeeded and the [username] claim is there,
    the resolver raises no [HTTPException] at all, so the [raise] under
    [if user is None] is never taken; it returns the user value as soon as
    [TokenData] takes the claim. *)
Theorem get_current_user_user_is_never_None (now : Z) (token : string)
    (payload : dict) :
  decoded now token = inr payload ->
  is_None (dict_get payload "username") = false ->
  (forall e, get_current_user now token <> Raise e) /\
  (is_Some (TokenData_new (dict_get payload "username")) ->
   exists user : dict, get_current_user now token = Return user).
Proof.
  intros Hpayload Hname. apply is_None_false in Hname.
  rewrite (get_current_user_username now token payload Hpayload Hname).
  destruct (TokenData_new _) as [token_data|].
  - split; [done|]. intros _. by eexists.
  - split; [done|]. by intros [? ?].
Qed.

End Resolver.

(** ** The reference collaborators meet the assumptions *)

Section ReferenceLaws.
#[local] Existing Instances Reference.context Reference.jose
  Reference.environ Reference.database Reference.schema
  Reference.pyval_countable.

Lemma code_of_string_of_code (p : positive) :
  Reference.code_of_string (Reference.string_of_code p) = Some p.
Proof. induction p as [p IH|p IH|]; simpl; rewrite ?IH; reflexivity. Qed.

Lemma reference_verify_accepts_own_hash : verify_accepts_own_hash.
Proof.
  intros salt secret hashed. unfold hash.
  destruct (has_nul secret); [discriminate|].
  intros [= <-]. simpl. apply String.eqb_refl.
Qed.

Lemma reference_hash_differs_from_secret : hash_differs_from_secret.
Proof.
  intros salt secret hashed. unfold hash.
  destruct (has_nul secret); [discriminate|].
  intros [= <-] Heq. apply (f_equal String.length) in Heq.
  simpl in Heq. lia.
Qed.

Lemma reference_jwt_decode_encode (claims : dict) (now : Z) :
  jwt_decode now (jwt_encode claims SECRET_KEY ALGORITHM)
             SECRET_KEY [ALGORITHM]
  = match claims !! "exp" with
    | Some (PDatetime expire) =>
        if (expire <? now)%Z then inl ExpiredSignatureError
        else inr (<[ "exp" := PInt expire ]> claims)
    | _ => inr claims
    end.
Proof.
  cbn [jwt_decode jwt_encode Reference.jose].
  rewrite code_of_string_of_code. cbn [mbind option_bind].
  rewrite decode_encode.
  rewrite bool_decide_eq_true_2 by reflexivity.
  rewrite bool_decide_eq_true_2 by apply list_elem_of_here.
  reflexivity.
Qed.

Lemma reference_jwt_round_trip : jwt_round_trip.
Proof.
  intros claims expire now _ Hexp Hnow.
  rewrite reference_jwt_decode_encode, Hexp.
  destruct (Z.ltb_spec expire now); [lia|reflexivity].
Qed.

Lemma reference_jwt_rejects_expired : jwt_rejects_expired.
Proof.
  intros claims expire now Hexp Hnow.
  rewrite reference_jwt_decode_encode, Hexp.
  destruct (Z.ltb_spec expire now); [by eexists|lia].
Qed.

End ReferenceLaws.

(** ** The handlers on sample requests *)

Section Samples.
#[local] Existing Instances Reference.context Reference.jose
  Reference.environ Reference.database Reference.schema.
Import Reference.

Lemma login_token_unauthorized_sample :
  login_token 0 bad_login users = Raise invalid_credentials /\
  route login_token_status_code (login_token 0 bad_login users)
  = Error 401 "Invalid username or password" None.
Proof.
  apply login_token_unauthorized.
  right. exists alice. split; reflexivity.
Defined.

Lemma bare_claims_private : private_claims bare_claims.
Proof.
  intros k v Hlookup. unfold bare_claims in Hlookup.
  apply lookup_singleton_Some in Hlookup as [<- <-]. reflexivity.
Qed.

Lemma decode_encode_preserves_claims_sample :
  exists payload : dict,
    decoded 1800 (create_access_token 0 (login_claims alice)) = inr payload /\
    payload !! "username" = login_claims alice !! "username" /\
    payload !! "id" = login_claims alice !! "id" /\
    payload !! "role" = login_claims alice !! "role" /\
    (forall k, k <> "exp" -> payload !! k = login_claims alice !! k).
Proof.
  apply decode_encode_preserves_claims.
  - exact reference_jwt_round_trip.
  - apply login_claims_private.
  - lia.
Defined.

Lemma create_user_password_mismatch_sample :
  create_user "s"%char bad_signup users = (Raise password_mismatch, users) /\
  route create_user_status_code (create_user "s"%char bad_signup users).1
  = Error 401 "Password Don't Match" None /\
  (create_user "s"%char bad_signup users).2 = users.
Proof.
  apply create_user_password_mismatch. discriminate.
Defined.

Lemma login_token_issues_user_claims_sample :
  exists token : string,
    route login_token_status_code (login_token 0 good_login users)
    = Ok 200 {[ "access_token" := PStr token;
                "token_type" := PStr "bearer" ]} /\
    token = create_access_token 0
              {[ "username" := PStr "alice";
                 "id" := PInt 1;
                 "role" := PStr "listener" ]} /\
    models.username alice = form_username good_login /\
    forall later : Z,
      later <= 0 + 3600 ->
      exists payload : dict,
        decoded later token = inr payload /\
        payload !! "username" = Some (PStr "alice") /\
        payload !! "id" = Some (PInt 1) /\
        payload !! "role" = Some (PStr "listener").
Proof.
  apply (login_token_issues_user_claims 0 good_login users alice).
  - exact reference_jwt_round_trip.
  - reflexivity.
  - reflexivity.
Defined.



Lemma access_token_expires_after_one_hour_sample :
  (exists claims : dict,
     create_access_token 0 bare_claims
     = jwt_encode claims SECRET_KEY ALGORITHM /\
     claims !! "exp" = Some (PDatetime (0 + timedelta_minutes 60))) /\
  (forall later : Z,
     private_claims bare_claims ->
     later <= 0 + timedelta_minutes 60 ->
     exists payload : dict,
       decoded later (create_access_token 0 bare_claims) = inr payload /\
       payload !! "exp" = Some (PInt (0 + timedelta_minutes 60))) /\
  (forall later : Z,
     0 + timedelta_minutes 60 < later ->
     (exists err : JWTError,
        decoded later (create_access_token 0 bare_claims) = inl err) /\
     get_current_user later (create_access_token 0 bare_claims)
     = Raise credentials_exception).
Proof.
  apply access_token_expires_after_one_hour.
  - exact reference_jwt_round_trip.
  - exact reference_jwt_rejects_expired.
Defined.

Lemma create_user_inserts_hashed_user_sample :
  (exists row : models.Users,
     create_user "s"%char good_signup users
     = (Return row, (users ++ [row])%list) /\
     route create_user_status_code
       (create_user "s"%char good_signup users).1
     = Ok 200 row /\
     length (create_user "s"%char good_signup users).2 = S (length users) /\
     models.username row = "bob" /\
     models.role row = "admin" /\
     models.passwordHash row = "$sbuilder" /\
     verify_password (models.passwordHash row) "builder" = true /\
     models.passwordHash row <> "builder") /\
  create_user "s"%char nul_signup users
  = (Uncaught PasswordValueError, users).
Proof.
  split.
  - apply (@create_user_inserts_hashed_user context database
             "s"%char good_signup users);
      [exact reference_verify_accepts_own_hash
      | exact reference_hash_differs_from_secret
      | reflexivity | reflexivity].
  - apply (@create_user_inserts_hashed_user context database
             "s"%char nul_signup users);
      [exact reference_verify_accepts_own_hash
      | exact reference_hash_differs_from_secret
      | reflexivity | reflexivity].
Defined.

(** A signup that sends the password [a\x00b] twice is answered 500 and adds
    no row. *)
Lemma create_user_nul_password :
  schemas.password nul_signup = schemas.confirmation nul_signup /\
  create_user "s"%char nul_signup users
  = (Uncaught PasswordValueError, users) /\
  route create_user_status_code (create_user "s"%char nul_signup users).1
  = Error 500 "Internal Server Error" None /\
  ~ (exists row : models.Users,
       create_user "s"%char nul_signup users
       = (Return row, (users ++ [row])%list)).
Proof.
  split; [reflexivity|]. split; [reflexivity|]. split; [reflexivity|].
  intros [row Hrow]. discriminate.
Qed.

(** A token that is no binary numeral does not decode. *)
Lemma get_current_user_unauthorized_sample :
  get_current_user 0 "not-a-token" = Raise credentials_exception /\
  forall code : Z,
    route code (get_current_user 0 "not-a-token")
    = Error 401 "Could not validate credentials"
            (Some [("WWW-Authenticate", "Bearer")]).
Proof.
  apply (proj1 (get_current_user_unauthorized 0 "not-a-token")).
  left. exists JWTError_. reflexivity.
Defined.

Lemma decoded_bare_claims :
  decoded 60 (create_access_token 0 bare_claims)
  = inr (<[ "exp" := PInt (0 + 3600) ]> (to_encode 0 bare_claims)).
Proof.
  apply decoded_create_access_token;
    [exact reference_jwt_round_trip | exact bare_claims_private | lia].
Qed.

Lemma bare_claims_username :
  dict_get (<[ "exp" := PInt (0 + 3600) ]> (to_encode 0 bare_claims))
           "username"
  = PStr "alice".
Proof.
  apply dict_get_Some. rewrite decoded_payload_other by done.
  reflexivity.
Qed.

(** A token with a [username] and neither [id] nor [role] resolves to a user
    whose [id] and [role] are [None]. *)
Lemma get_current_user_tolerates_missing_claims_sample :
  exists user : dict,
    get_current_user 60 (create_access_token 0 bare_claims) = Return user /\
    user !! "username" = Some (PStr "alice") /\
    user !! "id" = Some PNone /\
    user !! "role" = Some PNone.
Proof.
  destruct (get_current_user_tolerates_missing_claims
              60 (create_access_token 0 bare_claims) _ decoded_bare_claims)
    as [Hpresent _].
  rewrite bare_claims_username in Hpresent.
  destruct Hpresent as [_ (user & Hreturn & Hname & _ & _ & Hid & Hrole)];
    [discriminate | by eexists|].
  exists user. split; [exact Hreturn|]. split; [exact Hname|].
  split; [apply Hid | apply Hrole];
    (rewrite decoded_payload_other by done; reflexivity).
Defined.

Lemma get_current_user_user_is_never_None_sample :
  (forall e,
     get_current_user 60 (create_access_token 0 bare_claims) <> Raise e) /\
  exists user : dict,
    get_current_user 60 (create_access_token 0 bare_claims) = Return user.
Proof.
  destruct (get_current_user_user_is_never_None
              60 (create_access_token 0 bare_claims) _ decoded_bare_claims)
    as [Hnever Hreturn].
  - rewrite bare_claims_username. reflexivity.
  - split; [exact Hnever|]. apply Hreturn.
    rewrite bare_claims_username. by eexists.
Defined.

End Samples.


(** * Further properties of the handlers *)

(** ** Who gets a token *)

Section LoginSoundness.
Context {password_context : CryptContext} {jwt : Jwt} {environ : Environ}.

(** [first()] over a table followed by more rows looks at the later rows
    only when the table itself has no match. *)
Lemma query_first_by_username_append (db rows : list models.Users)
    (name : string) :
  query_first_by_username (db ++ rows) name
  = match query_first_by_username db name with
    | Some user => Some user
    | None => query_first_by_username rows name
    end.
Proof.
  unfold query_first_by_username.
  induction db as [|first db IH]; simpl; [by destruct (find _ rows)|].
  by destruct (String.eqb (models.username first) name).
Qed.

Lemma query_first_by_username_found (db : list models.Users) (name : string) :
  (exists user, In user db /\ models.username user = name) ->
  exists first, query_first_by_username db name = Some first.
Proof.
  intros (user & Hin & Hname).
  destruct (query_first_by_username db name) as [first|] eqn:Hquery;
    [by exists first|].
  exfalso. by apply (proj1 (query_first_by_username_None db name) Hquery user).
Qed.

(** The login handler reads the table through [first()] only. *)
Lemma login_token_same_lookup (now : Z) (request : OAuth2PasswordRequestForm)
    (db db' : list models.Users) :
  query_first_by_username db (form_username request)
  = query_first_by_username db' (form_username request) ->
  login_token now request db = login_token now request db'.
Proof. unfold login_token. intros ->. reflexivity. Qed.

(** X1. A login returns a body only for a stored user that carries the
    requested username and whose hash the supplied password verifies against;
    the body then holds the token made from that user's claims and the type
    "bearer". *)
Theorem login_token_only_for_verified_user (now : Z)
    (request : OAuth2PasswordRequestForm) (db : list models.Users)
    (body : dict) :
  login_token now request db = Return body ->
  exists user : models.Users,
    In user db /\
    models.username user = form_username request /\
    verify_password (models.passwordHash user) (form_password request)
    = true /\
    body = {[ "access_token" :=
                PStr (create_access_token now (login_claims user));
              "token_type" := PStr "bearer" ]}.
Proof.
  unfold login_token.
  destruct (query_first_by_username db (form_username request))
    as [user|] eqn:Hquery; [|discriminate].
  destruct (verify_password _ _) eqn:Hverify; [|discriminate].
  intros [= <-]. exists user.
  apply query_first_by_username_Some in Hquery as [Hin Hname].
  by repeat split.
Qed.

End LoginSoundness.

(** ** What a signup does to the user table *)

Section SignupTable.
Context {password_context : CryptContext} {jwt : Jwt} {environ : Environ}
        {database : Database}.

Lemma create_user_table (salt : Salt) (request : schemas.CreateUser)
    (db : list models.Users) :
  (create_user salt request db).2
  = if String.eqb (schemas.password request) (schemas.confirmation request)
    then match generate_hash salt (schemas.password request) with
         | inr hash_pass => (db ++ [new_user hash_pass request db])%list
         | inl _ => db
         end
    else db.
Proof.
  unfold create_user.
  destruct (String.eqb (schemas.password request)
                       (schemas.confirmation request)); [|reflexivity].
  by destruct (generate_hash salt (schemas.password request)).
Qed.

(** X2. Whatever the request, a signup keeps every stored user in place: the
    old table is a prefix of the new one, longer by one row at most.  The
    table is one row longer exactly when the handler returns, which is
    exactly when password and confirmation agree and passlib hashes the
    password; a password with a NUL byte adds no row. *)
Theorem create_user_only_appends (salt : Salt) (request : schemas.CreateUser)
    (db : list models.Users) :
  db `prefix_of` (create_user salt request db).2 /\
  ((exists row, (create_user salt request db).1 = Return row) <->
   schemas.password request = schemas.confirmation request /\
   exists hash_pass,
     generate_hash salt (schemas.password request) = inr hash_pass) /\
  (length (create_user salt request db).2 = S (length db) <->
   exists row, (create_user salt request db).1 = Return row) /\
  (length (create_user salt request db).2 = length db \/
   length (create_user salt request db).2 = S (length db)) /\
  (has_nul (schemas.password request) = true ->
   (create_user salt request db).2 = db).
Proof.
  rewrite create_user_table. unfold create_user.
  pose proof (generate_hash_nul salt (schemas.password request)) as Hnul.
  destruct (String.eqb_spec (schemas.password request)
                            (schemas.confirmation request)) as [Heq|Hne];
    [destruct (generate_hash salt (schemas.password request))
       as [e|hash_pass]|];
    simpl; rewrite ?length_app; simpl.
  - split; [done|]. split; [|split; [|split]].
    + split; [by intros [? ?] | by intros [_ [? ?]]].
    + split; [lia | by intros [? ?]].
    + by left.
    + done.
  - split; [by apply prefix_app_r|]. split; [|split; [|split]].
    + split; [by eauto | by eauto].
    + split; [by eauto | lia].
    + right. lia.
    + intros Hp. by specialize (Hnul Hp).
  - split; [done|]. split; [|split; [|split]].
    + split; [by intros [? ?] | by intros [? _]].
    + split; [lia | by intros [? ?]].
    + by left.
    + done.
Qed.

(** X3. A signup does not change the outcome of a login for a username that a
    stored user already has, nor for any username other than the one signed
    up: such a login gets the very response it would have got before. *)
Theorem create_user_keeps_logins (salt : Salt) (signup : schemas.CreateUser)
    (db : list models.Users) (now : Z) (request : OAuth2PasswordRequestForm) :
  (exists user, In user db /\
                models.username user = form_username request) \/
  form_username request <> schemas.username signup ->
  login_token now request (create_user salt signup db).2
  = login_token now request db.
Proof.
  intros Hcase. apply login_token_same_lookup.
  rewrite create_user_table.
  destruct (String.eqb (schemas.password signup)
                       (schemas.confirmation signup)); [|reflexivity].
  destruct (generate_hash salt (schemas.password signup)); [reflexivity|].
  rewrite query_first_by_username_append.
  destruct Hcase as [Hfound | Hother].
  - apply query_first_by_username_found in Hfound as [first ->]. reflexivity.
  - destruct (query_first_by_username db (form_username request));
      [reflexivity|].
    unfold query_first_by_username. simpl.
    assert (String.eqb (schemas.username signup) (form_username request)
            = false) as ->; [|reflexivity].
    apply String.eqb_neq. congruence.
Qed.

End SignupTable.

(** ** Issued tokens and the resolver *)

Section IssueResolve.
Context {password_context : CryptContext} {jwt : Jwt} {environ : Environ}
        {database : Database} {schemas_ : Schemas}.

(** X6. A user value the resolver returns has exactly the keys [username],
    [id] and [role], and its [username] is not [None]: no other claim of the
    payload, [exp] included, is passed on. *)
Theorem get_current_user_shape (now : Z) (token : string) (user : dict) :
  get_current_user now token = Return user ->
  dom user = ({[ "username"; "id"; "role" ]} : gset string) /\
  (exists v : pyval, user !! "username" = Some v /\ v <> PNone) /\
  user !! "exp" = None.
Proof.
  intros Hreturn.
  apply get_current_user_Return in Hreturn as (payload & _ & Hname & ->).
  unfold resolved_user. split; [|split].
  - rewrite !dom_insert_L, dom_singleton_L. set_solver.
  - exists (dict_get payload "username"). by simplify_map_eq.
  - by simplify_map_eq.
Qed.

Lemma dict_get_issued (now : Z) (data : dict) (k : string) :
  k <> "exp" ->
  dict_get (<[ "exp" := PInt (now + 3600) ]> (to_encode now data)) k
  = dict_get data k.
Proof.
  intros Hne. unfold dict_get. by rewrite decoded_payload_other.
Qed.

(** The resolver on a token of [create_access_token], within the hour. *)
Lemma get_current_user_issued (now later : Z) (data : dict) :
  jwt_round_trip ->
  private_claims data ->
  later <= now + 3600 ->
  get_current_user later (create_access_token now data)
  = if is_None (dict_get data "username") then Raise credentials_exception
    else match TokenData_new (dict_get data "username") with
         | Some _ => Return (resolved_user data)
         | None => Uncaught ValidationError
         end.
Proof.
  intros Hrt Hprivate Hlater.
  pose proof (decoded_create_access_token now later data Hrt Hprivate Hlater)
    as Hdecoded.
  unfold decoded in Hdecoded. unfold get_current_user, resolved_user.
  rewrite Hdecoded. rewrite !dict_get_issued by done.
  destruct (is_None (dict_get data "username")); [reflexivity|].
  by destruct (TokenData_new (dict_get data "username")).
Qed.

(** X7. A token issued for data without a [username] (absent or [None]) is
    refused by the resolver with its 401 even before it expires. *)
Theorem get_current_user_issued_without_username (now later : Z)
    (data : dict) :
  jwt_round_trip ->
  private_claims data ->
  later <= now + 3600 ->
  dict_get data "username" = PNone ->
  get_current_user later (create_access_token now data)
  = Raise credentials_exception.
Proof.
  intros Hrt Hprivate Hlater Hname.
  rewrite get_current_user_issued by done. by rewrite Hname.
Qed.

(** X8. The token a login returns, presented to the resolver within the hour,
    resolves to the [username], [id] and [role] of the stored user the login
    found, provided [TokenData] takes that username. *)
Theorem login_token_resolves_to_user (now later : Z)
    (request : OAuth2PasswordRequestForm) (db : list models.Users)
    (body : dict) (token : string) :
  jwt_round_trip ->
  login_token now request db = Return body ->
  body !! "access_token" = Some (PStr token) ->
  later <= now + 3600 ->
  exists user : models.Users,
    query_first_by_username db (form_username request) = Some user /\
    (is_Some (TokenData_new (PStr (models.username user))) ->
     get_current_user later token
     = Return {[ "username" := PStr (models.username user);
                 "id" := PInt (models.id user);
                 "role" := PStr (models.role user) ]}).
Proof.
  intros Hrt Hlogin Htoken Hlater. unfold login_token in Hlogin.
  destruct (query_first_by_username db (form_username request))
    as [user|] eqn:Hquery; [|discriminate].
  destruct (verify_password _ _); [|discriminate].
  injection Hlogin as <-.
  rewrite lookup_insert_eq in Htoken. injection Htoken as <-.
  exists user. split; [reflexivity|]. intros [token_data Haccepts].
  change (create_access_token now _)
    with (create_access_token now (login_claims user)).
  rewrite get_current_user_issued
    by (try done; apply login_claims_private).
  unfold resolved_user, login_claims, dict_get.
  by simplify_map_eq.
Qed.

(** X9. Signup, login, resolve: after a signup with matching passwords, of
    a password passlib hashes, under a username no stored user has, a login
    with the same credentials returns with status 200, and its token resolves
    within the hour to the signed-up username, the key the store gave the
    row, and the role exactly as it was sent. *)
Theorem signup_login_resolve (salt : Salt) (now later : Z)
    (request : schemas.CreateUser) (db : list models.Users)
    (hash_pass : string) :
  verify_accepts_own_hash ->
  jwt_round_trip ->
  is_Some (TokenData_new (PStr (schemas.username request))) ->
  schemas.password request = schemas.confirmation request ->
  generate_hash salt (schemas.password request) = inr hash_pass ->
  (forall user, In user db ->
                models.username user <> schemas.username request) ->
  later <= now + 3600 ->
  exists token : string,
    route login_token_status_code
      (login_token now
         {| form_username := schemas.username request;
            form_password := schemas.password request |}
         (create_user salt request db).2)
    = Ok 200 {[ "access_token" := PStr token;
                "token_type" := PStr "bearer" ]} /\
    get_current_user later token
    = Return {[ "username" := PStr (schemas.username request);
                "id" := PInt (next_id db);
                "role" := PStr (schemas.role request) ]}.
Proof.
  intros Hverify Hrt [token_data Haccepts] Heq Hhash Hfresh Hlater.
  exists (create_access_token now
            (login_claims (new_user hash_pass request db))).
  rewrite (login_after_signup salt now request db hash_pass
             Hverify Heq Hhash Hfresh).
  split; [reflexivity|].
  rewrite get_current_user_issued
    by (try done; apply login_claims_private).
  unfold resolved_user, login_claims, new_user, dict_get.
  by simplify_map_eq.
Qed.

End IssueResolve.

(** ** The further properties on sample requests *)

(** A signup under the username the sample table already holds. *)
Definition alice_again : schemas.CreateUser :=
  {| schemas.username := "alice";
     schemas.password := "rabbit-hole";
     schemas.confirmation := "rabbit-hole";
     schemas.role := "admin" |}.

(** Claims with an [id] and no [username]. *)
Definition nameless_claims : dict := {[ "id" := PInt 7 ]}.

Section FurtherSamples.
#[local] Existing Instances Reference.context Reference.jose
  Reference.environ Reference.database Reference.schema.
Import Reference.

Lemma good_login_accepted :
  login_token 0 good_login users
  = Return {[ "access_token" :=
                PStr (create_access_token 0 (login_claims alice));
              "token_type" := PStr "bearer" ]}.
Proof. apply login_token_accepted; reflexivity. Qed.

Lemma login_token_only_for_verified_user_sample :
  exists user : models.Users,
    In user users /\
    models.username user = "alice" /\
    verify_password (models.passwordHash user) "wonderland" = true /\
    {[ "access_token" := PStr (create_access_token 0 (login_claims alice));
       "token_type" := PStr "bearer" ]}
    = ({[ "access_token" :=
            PStr (create_access_token 0 (login_claims user));
          "token_type" := PStr "bearer" ]} : dict).
Proof.
  apply (login_token_only_for_verified_user 0 good_login users).
  exact good_login_accepted.
Defined.

Lemma create_user_keeps_logins_sample :
  login_token 0 good_login (create_user "s"%char alice_again users).2
  = login_token 0 good_login users.
Proof.
  apply (@create_user_keeps_logins context jose environ database).
  left. exists alice. split; [by left | reflexivity].
Defined.

Lemma nameless_claims_private : private_claims nameless_claims.
Proof.
  intros k v Hlookup. unfold nameless_claims in Hlookup.
  apply lookup_singleton_Some in Hlookup as [<- <-]. reflexivity.
Qed.

Lemma bare_claims_resolved :
  get_current_user 60 (create_access_token 0 bare_claims)
  = Return (resolved_user bare_claims).
Proof.
  rewrite get_current_user_issued;
    [reflexivity | exact reference_jwt_round_trip
     | exact bare_claims_private | lia].
Qed.

Lemma get_current_user_shape_sample :
  dom (resolved_user bare_claims)
  = ({[ "username"; "id"; "role" ]} : gset string) /\
  (exists v : pyval,
     resolved_user bare_claims !! "username" = Some v /\ v <> PNone) /\
  resolved_user bare_claims !! "exp" = None.
Proof.
  apply (get_current_user_shape 60 (create_access_token 0 bare_claims)).
  exact bare_claims_resolved.
Defined.

Lemma get_current_user_issued_without_username_sample :
  get_current_user 60 (create_access_token 0 nameless_claims)
  = Raise credentials_exception.
Proof.
  apply get_current_user_issued_without_username.
  - exact reference_jwt_round_trip.
  - exact nameless_claims_private.
  - lia.
  - reflexivity.
Defined.

Lemma login_token_resolves_to_user_sample :
  exists user : models.Users,
    query_first_by_username users "alice" = Some user /\
    (is_Some (TokenData_new (PStr (models.username user))) ->
     get_current_user 60 (create_access_token 0 (login_claims alice))
     = Return {[ "username" := PStr (models.username user);
                 "id" := PInt (models.id user);
                 "role" := PStr (models.role user) ]}).
Proof.
  apply (login_token_resolves_to_user 0 60 good_login users
           {[ "access_token" :=
                PStr (create_access_token 0 (login_claims alice));
              "token_type" := PStr "bearer" ]}).
  - exact reference_jwt_round_trip.
  - exact good_login_accepted.
  - apply lookup_insert_eq.
  - lia.
Defined.

Lemma signup_login_resolve_sample :
  exists token : string,
    route login_token_status_code
      (login_token 0
         {| form_username := "bob"; form_password := "builder" |}
         (create_user "s"%char good_signup users).2)
    = Ok 200 {[ "access_token" := PStr token;
                "token_type" := PStr "bearer" ]} /\
    get_current_user 60 token
    = Return {[ "username" := PStr "bob";
                "id" := PInt 2;
                "role" := PStr "admin" ]}.
Proof.
  apply (@signup_login_resolve context jose environ database schema
           "s"%char 0 60 good_signup users "$sbuilder").
  - exact reference_verify_accepts_own_hash.
  - exact reference_jwt_round_trip.
  - by eexists.
  - reflexivity.
  - reflexivity.
  - intros user [<- | []]. discriminate.
  - lia.
Defined.

End FurtherSamples.
